(** * FastUI / SQLModel user demo: the request handlers over a model of the store

    The program (final/db.py, final/main.py) keeps one table, [User], in a
    SQLite file and serves six routes.  Each handler opens a session on the
    engine, reads or writes through it, and returns a FastUI view description
    or a form response.

    The embedding is shallow.  The table is a finite map from the integer
    primary key to the remaining columns.  A session is a pair of the
    committed table and the transaction's own view of it; [commit] publishes
    the view, and leaving the [with] block drops whatever was not committed.
    Handlers are computations in a state-and-exception monad over the
    committed table.  The rule by which the store picks a primary key for a
    row inserted without one is a parameter of the development; SQLite's
    rule (largest key plus one) is given as an instance. *)

From stdpp Require Import base option list strings gmap fin_maps sorting pretty.

(** ** Data model (final/db.py) *)

(** [datetime.date]. *)
Record date := Date { year : Z; month : Z; day : Z }.

(** [class User(SQLModel, table=True)].  A table model is not validated when
    it is constructed, so [id] is [None] until a row is given one. *)
Record User := mkUser { id : option Z; name : string; dob : date }.

(** The columns of a stored row besides the primary key. *)
Record UserRow := mkRow { row_name : string; row_dob : date }.

(** The [user] table: primary key to row. *)
Abbreviation Database := (gmap Z UserRow).

Definition row_of (u : User) : UserRow :=
  {| row_name := name u; row_dob := dob u |}.

(** The object the session hands out for the row stored under [k]. *)
Definition load (k : Z) (r : UserRow) : User :=
  {| id := Some k; name := row_name r; dob := row_dob r |}.

#[global] Instance date_eq_dec : EqDecision date.
Proof. solve_decision. Defined.
#[global] Instance UserRow_eq_dec : EqDecision UserRow.
Proof. solve_decision. Defined.
#[global] Instance User_eq_dec : EqDecision User.
Proof. solve_decision. Defined.

(** ** Exceptions and the handler monad *)

Inductive Exception :=
  | HTTPException (status_code : Z) (detail : string)
  | IntegrityError
  | InvalidRequestError.

Inductive Outcome (A : Type) :=
  | Returns (a : A)
  | Raises (e : Exception).
Arguments Returns {A} a.
Arguments Raises {A} e.

(** A computation over a state [S] that returns or raises; the state
    reached is kept in both cases. *)
Definition M (S A : Type) : Type := S → Outcome A * S.

#[global] Instance M_ret {S} : MRet (M S) := λ A a s, (Returns a, s).
#[global] Instance M_bind {S} : MBind (M S) := λ A B k m s,
  match m s with
  | (Returns a, s') => k a s'
  | (Raises e, s') => (Raises e, s')
  end.

Definition raise {S A} (e : Exception) : M S A := λ s, (Raises e, s).

(** [for x in xs: body(x)]. *)
Fixpoint for_each {S A} (xs : list A) (body : A → M S unit) : M S unit :=
  match xs with
  | [] => mret ()
  | x :: xs' => body x ;; for_each xs' body
  end.

(** ** Sessions *)

Record Session := mkSession { committed : Database; pending : Database }.

(** SQLite's choice of a key for a row inserted without one: one more than
    the largest key in use, and 1 in an empty table. *)
Definition max_rowid (db : Database) : option Z :=
  foldr (λ k acc, Some (from_option (Z.max k) k acc)) None (map_to_list db).*1.

Definition sqlite_next_rowid (db : Database) : Z :=
  from_option (λ m, m + 1)%Z 1%Z (max_rowid db).

(** [SELECT ... FROM user]: a scan of the table, in primary-key order. *)
Definition rowid_le (a b : Z * UserRow) : Prop := (a.1 ≤ b.1)%Z.

#[global] Instance rowid_le_dec : RelDecision rowid_le.
Proof. intros a b. unfold rowid_le. apply _. Defined.

Definition scan (db : Database) : list User :=
  (λ kr, load kr.1 kr.2) <$> merge_sort rowid_le (map_to_list db).

(** ** View descriptions (fastui) *)

Inductive Event :=
  | GoToEvent (url : string)
  | BackEvent.

Inductive DisplayMode := DisplayMode_date.

Record DisplayLookup := mkDisplayLookup
  { field : string; mode : option DisplayMode; on_click : option Event }.

Inductive FormModel := UserForm_model | DeleteUserForm_model.

#[warnings="-register-all"] Inductive Component :=
  | Page (components : list Component)
  | Heading (text : string) (level : Z)
  | Paragraph (text : string)
  | ModelForm (model : FormModel) (submit_url : string) (class_name : option string)
  | Table (data : list User) (columns : list DisplayLookup)
  | Div (components : list Component) (class_name : option string)
  | Link (components : list Component) (on_click : Event)
  | Button (text : string)
  | Text (text : string)
  | Details (data : User).

Record FormResponse := mkFormResponse { event : Event }.

(** ** Forms *)

Record UserForm := mkUserForm { form_name : string; form_dob : date }.
Record DeleteUserForm := mkDeleteUserForm { confirm : bool }.

(** The user built from the fields of the submitted form; no [id] is given. *)
Definition User_of_form (form : UserForm) : User :=
  {| id := None; name := form_name form; dob := form_dob form |}.

Section App.

(** The store's rule for the key of a row inserted without one. *)
Variable next_rowid : Database → Z.

(** [fastui.prebuilt_html]. *)
Variable prebuilt_html : string → string.

(** [session.get(User, ident)]. *)
Definition session_get (ident : option Z) : M Session (option User) := λ s,
  (Returns (k ← ident; load k <$> pending s !! k), s).

(** [session.add(user)]: the row is inserted in the transaction; a key
    already in use violates the primary-key constraint. *)
Definition session_add (user : User) : M Session unit := λ s,
  let k := default (next_rowid (pending s)) (id user) in
  match pending s !! k with
  | Some _ => (Raises IntegrityError, s)
  | None =>
      (Returns (), {| committed := committed s;
                      pending := <[k := row_of user]> (pending s) |})
  end.

(** [session.delete(user)]. *)
Definition session_delete (user : User) : M Session unit := λ s,
  match id user with
  | Some k =>
      (Returns (), {| committed := committed s;
                      pending := delete k (pending s) |})
  | None => (Raises InvalidRequestError, s)
  end.

(** [session.commit()]. *)
Definition session_commit : M Session unit := λ s,
  (Returns (), {| committed := pending s; pending := pending s |}).

(** [session.exec(select(User)).all()]. *)
Definition session_select_all : M Session (list User) := λ s,
  (Returns (scan (pending s)), s).

(** [with Session(engine) as session: body]. *)
Definition with_session {A} (body : M Session A) : M Database A := λ db,
  let '(r, s) := body {| committed := db; pending := db |} in
  (r, committed s).

(** ** Startup (final/main.py, lifespan) *)

Definition users : list User :=
  [ mkUser (Some 1%Z) "John" (Date 1990 1 1);
    mkUser (Some 2%Z) "Jack" (Date 1991 1 1);
    mkUser (Some 3%Z) "Jill" (Date 1992 1 1);
    mkUser (Some 4%Z) "Jane" (Date 1993 1 1) ].

Definition lifespan : M Database unit :=
  with_session (
    for_each users (λ user,
      db_user ← session_get (id user);
      match db_user with
      | Some _ => mret ()
      | None => session_add user
      end) ;;
    session_commit).

(** ** Handlers (final/main.py) *)

(** [GET /api/user/add/]. *)
Definition add_user_get : M Database (list Component) :=
  mret [ Page [ Heading "Add User" 2;
                Paragraph "Add a user to the system";
                ModelForm UserForm_model "/api/user/add/" None ] ].

(** [POST /api/user/add/]. *)
Definition add_user (form : UserForm) : M Database FormResponse :=
  with_session (
    let user := User_of_form form in
    session_add user ;;
    session_commit) ;;
  mret (mkFormResponse (GoToEvent "/")).

(** [GET /api/]. *)
Definition users_table : M Database (list Component) :=
  users ← with_session session_select_all;
  mret [ Page [ Heading "Users" 2;
                Table users
                  [ mkDisplayLookup "name" None (Some (GoToEvent "/user/{id}/"));
                    mkDisplayLookup "dob" (Some DisplayMode_date) None ];
                Div [ Link [ Button "Add User" ] (GoToEvent "/user/add/") ] None ] ].

(** [GET /api/user/{user_id}/]. *)
Definition user_profile (user_id : Z) : M Database (list Component) :=
  user ← with_session (
    user ← session_get (Some user_id);
    match user with
    | None => raise (HTTPException 404 "User not found")
    | Some user => mret user
    end);
  mret [ Page [ Heading (name user) 2;
                Link [ Text "Back" ] BackEvent;
                Details user;
                Div [ Heading "Delete User?" 4;
                      ModelForm DeleteUserForm_model
                        ("/api/user/" +:+ pretty user_id +:+ "/delete/")
                        (Some "text-left") ]
                    (Some "card p-4 col-4") ] ].

(** [POST /api/user/{user_id}/delete/]. *)
Definition delete_user (user_id : Z) (form : DeleteUserForm) : M Database FormResponse :=
  with_session (
    user ← session_get (Some user_id);
    match user with
    | Some user => session_delete user ;; session_commit
    | None => mret ()
    end) ;;
  mret (mkFormResponse (GoToEvent "/")).

(** [GET /{path:path}]. *)
Definition html_landing : M Database string :=
  mret (prebuilt_html "FastUI Demo").

End App.

(** ** The application: routes and startup *)

Inductive Request :=
  | GET_api_user_add
  | POST_api_user_add (form : UserForm)
  | GET_api
  | GET_api_user (user_id : Z)
  | POST_api_user_delete (user_id : Z) (form : DeleteUserForm)
  | GET_path (path : string).

Inductive Response :=
  | FastUI (view : list Component)
  | FormResponse_json (response : FormResponse)
  | HTMLResponse (content : string).

#[global] Instance M_fmap {S} : FMap (M S) := λ A B f m, a ← m; mret (f a).

(** The router: the first route that matches the request serves it. *)
Definition app (next_rowid : Database → Z) (prebuilt_html : string → string)
    (req : Request) : M Database Response :=
  match req with
  | GET_api_user_add => FastUI <$> add_user_get
  | POST_api_user_add form => FormResponse_json <$> add_user next_rowid form
  | GET_api => FastUI <$> users_table
  | GET_api_user user_id => FastUI <$> user_profile user_id
  | POST_api_user_delete user_id form => FormResponse_json <$> delete_user user_id form
  | GET_path _ => HTMLResponse <$> html_landing prebuilt_html
  end.

(** Everything the program ever does to the store: the startup hook, or
    serving one request. *)
Inductive Operation :=
  | Startup
  | Serve (req : Request).

Definition perform (next_rowid : Database → Z) (prebuilt_html : string → string)
    (op : Operation) (db : Database) : Database :=
  match op with
  | Startup => (lifespan next_rowid db).2
  | Serve req => (app next_rowid prebuilt_html req db).2
  end.

(** ** Observers used in the statements *)

(** The rows of the seed records, by primary key. *)
Definition seed_rows (us : list User) : Database :=
  list_to_map (omap (λ u, k ← id u; Some (k, row_of u)) us).

Definition table_rows (c : Component) : list User :=
  match c with
  | Table data _ => data
  | _ => []
  end.

(** The users a view lists in its tables. *)
Definition listed_users (view : list Component) : list User :=
  match view with
  | [Page components] => components ≫= table_rows
  | _ => []
  end.

(** What [GET /api/] lists. *)
Definition listing (db : Database) : list User :=
  match users_table db with
  | (Returns view, _) => listed_users view
  | (Raises _, _) => []
  end.

(** The heading a view opens with. *)
Definition page_heading (view : list Component) : option string :=
  match view with
  | [Page (Heading text _ :: _)] => Some text
  | _ => None
  end.

(** How many listed users carry the key [k]. *)
Definition count_id (k : Z) (us : list User) : nat :=
  length (filter (λ u, id u = Some k) us).

(** ** The scenario's data *)

Definition John : User := mkUser (Some 1%Z) "John" (Date 1990 1 1).
Definition Jack : User := mkUser (Some 2%Z) "Jack" (Date 1991 1 1).
Definition Jill : User := mkUser (Some 3%Z) "Jill" (Date 1992 1 1).
Definition Jane : User := mkUser (Some 4%Z) "Jane" (Date 1993 1 1).
Definition Amy : User := mkUser (Some 5%Z) "Amy" (Date 1994 1 1).

(** The table holding exactly the four seed records. *)
Definition seeded : Database :=
  <[1%Z := row_of John]> (<[2%Z := row_of Jack]> (<[3%Z := row_of Jill]>
    (<[4%Z := row_of Jane]> ∅))).

(** ** Routes by method, and further observers *)

(** The HTTP method a route is registered for ([@app.get], [@app.post]). *)
Inductive Method := GET | POST.

Definition method (req : Request) : Method :=
  match req with
  | GET_api_user_add => GET
  | POST_api_user_add _ => POST
  | GET_api => GET
  | GET_api_user _ => GET
  | POST_api_user_delete _ _ => POST
  | GET_path _ => GET
  end.

(** Whether an operation is a submission to the delete route. *)
Definition deletes (op : Operation) : bool :=
  match op with
  | Serve (POST_api_user_delete _ _) => true
  | _ => false
  end.

(** Whether an operation is the startup hook or a submission to the add
    route. *)
Definition creates (op : Operation) : bool :=
  match op with
  | Startup => true
  | Serve (POST_api_user_add _) => true
  | _ => false
  end.

Definition form_target (c : Component) : list string :=
  match c with
  | ModelForm _ submit_url _ => [submit_url]
  | _ => []
  end.

(** The submission targets of the forms of a view, at the top of the page
    or inside one of its [Div]s. *)
Definition form_targets (view : list Component) : list string :=
  match view with
  | [Page components] =>
      components ≫= λ c,
        match c with
        | Div inner _ => inner ≫= form_target
        | _ => form_target c
        end
  | _ => []
  end.

(** The records a view shows field by field. *)
Definition detailed_users (view : list Component) : list User :=
  match view with
  | [Page components] =>
      components ≫= λ c, match c with Details data => [data] | _ => [] end
  | _ => []
  end.

(** ** Equations of the handlers *)

Ltac run_handler :=
  unfold add_user, add_user_get, users_table, user_profile, delete_user,
    html_landing, lifespan, with_session, session_get, session_add,
    session_delete, session_commit, session_select_all, raise,
    fmap, M_fmap, mbind, M_bind, mret, M_ret; simpl.

Lemma user_profile_absent (user_id : Z) (db : Database) :
  db !! user_id = None →
  user_profile user_id db = (Raises (HTTPException 404 "User not found"), db).
Proof. intros Hnone. run_handler. by rewrite Hnone. Qed.

Lemma user_profile_present (user_id : Z) (db : Database) (r : UserRow) :
  db !! user_id = Some r →
  ∃ rest,
    user_profile user_id db
    = (Returns [Page (Heading (row_name r) 2 :: Link [Text "Back"] BackEvent
                      :: Details (load user_id r) :: rest)], db).
Proof. intros Hsome. run_handler. rewrite Hsome. simpl. eauto. Qed.

Lemma delete_user_eq (user_id : Z) (form : DeleteUserForm) (db : Database) :
  delete_user user_id form db
  = (Returns (mkFormResponse (GoToEvent "/")), delete user_id db).
Proof.
  run_handler. destruct (db !! user_id) as [r|] eqn:Hget; simpl; [done|].
  by rewrite delete_id.
Qed.

Lemma add_user_eq (next_rowid : Database → Z) (form : UserForm) (db : Database) :
  add_user next_rowid form db
  = match db !! next_rowid db with
    | Some _ => (Raises IntegrityError, db)
    | None =>
        (Returns (mkFormResponse (GoToEvent "/")),
         <[next_rowid db := mkRow (form_name form) (form_dob form)]> db)
    end.
Proof. run_handler. by destruct (db !! next_rowid db). Qed.

Lemma seed_rows_cons (u : User) (us : list User) (k : Z) :
  id u = Some k → seed_rows (u :: us) = <[k := row_of u]> (seed_rows us).
Proof. intros Hk. unfold seed_rows. simpl. by rewrite Hk. Qed.

(** The seeding loop, for any list of records that carry their own key:
    the transaction ends up with the rows it had, plus the seed rows whose
    key was free. *)
Lemma seeding_loop (next_rowid : Database → Z) (us : list User) (c t : Database) :
  Forall (λ u, is_Some (id u)) us →
  for_each us (λ user,
    db_user ← session_get (id user);
    match db_user with
    | Some _ => mret ()
    | None => session_add next_rowid user
    end) {| committed := c; pending := t |}
  = (Returns (), {| committed := c; pending := t ∪ seed_rows us |}).
Proof.
  intros Hids. revert t. induction Hids as [|u us [k Hk] _ IH]; intros t.
  - unfold seed_rows. simpl. by rewrite (right_id_L ∅ (∪)).
  - rewrite (seed_rows_cons u us k Hk). cbn [for_each].
    unfold mbind at 1, M_bind at 1. unfold mbind at 1, M_bind at 1.
    unfold session_get at 1. rewrite Hk. cbn [mbind option_bind pending].
    destruct (t !! k) as [r|] eqn:Hget; cbn [fmap option_fmap option_map].
    + unfold mret at 1, M_ret at 1. rewrite IH. do 2 f_equal.
      apply map_eq. intros i. rewrite !lookup_union.
      destruct (decide (k = i)) as [<-|Hne].
      * rewrite Hget. by destruct (<[k:=row_of u]> (seed_rows us) !! k), (seed_rows us !! k).
      * by rewrite lookup_insert_ne.
    + unfold session_add at 1. rewrite Hk. cbv [from_option Datatypes.id].
      cbn [pending committed]. rewrite Hget.
      rewrite IH. do 2 f_equal.
      rewrite <- insert_union_l. by rewrite insert_union_r.
Qed.

Lemma lifespan_eq (next_rowid : Database → Z) (db : Database) :
  lifespan next_rowid db = (Returns (), db ∪ seed_rows users).
Proof.
  unfold lifespan, with_session. unfold mbind at 1, M_bind at 1.
  rewrite seeding_loop; [done|].
  repeat constructor; by eexists.
Qed.

(** ** Facts about the table scan *)

Lemma scan_Permutation (db : Database) :
  scan db ≡ₚ (λ kr, load kr.1 kr.2) <$> map_to_list db.
Proof. unfold scan. by rewrite merge_sort_Permutation. Qed.

Lemma length_scan (db : Database) : length (scan db) = size db.
Proof. by rewrite scan_Permutation, length_fmap, length_map_to_list. Qed.

Lemma elem_of_scan (db : Database) (u : User) :
  u ∈ scan db ↔ ∃ k r, db !! k = Some r ∧ u = load k r.
Proof.
  rewrite scan_Permutation, list_elem_of_fmap. split.
  - intros [[k r] [-> Hin]]. exists k, r. by rewrite <- elem_of_map_to_list.
  - intros (k & r & Hget & ->). exists (k, r). by rewrite elem_of_map_to_list.
Qed.

Lemma count_id_scan (k : Z) (db : Database) :
  count_id k (scan db) = match db !! k with Some _ => 1 | None => 0 end.
Proof.
  unfold count_id. rewrite scan_Permutation.
  induction db as [|i x m Hfresh IH] using map_ind.
  - by rewrite map_to_list_empty.
  - rewrite map_to_list_insert by done. rewrite fmap_cons, filter_cons. simpl.
    destruct (decide (Some i = Some k)) as [[= ->]|Hne].
    + rewrite lookup_insert_eq. simpl. rewrite IH. by rewrite Hfresh.
    + rewrite lookup_insert_ne by congruence. done.
Qed.

(** ** SQLite's key rule yields a free key *)



Lemma listing_eq (db : Database) : listing db = scan db.
Proof. unfold listing. run_handler. by rewrite (right_id_L [] (++)). Qed.

(** ** Properties of the handlers *)

(** C1. Submitting the add-user form inserts exactly one row: when the key
    the store assigns is a free one, the handler answers with the
    navigation event to the list view, the table and the listing both grow
    by one, every other row is as it was, and the new row is found under
    the assigned key: in the listing, by a session lookup, and by the
    detail route. *)
Theorem add_user_inserts_one_row
    (next_rowid : Database → Z) (form : UserForm) (db : Database) :
  db !! next_rowid db = None →
  ∃ db' rest,
    add_user next_rowid form db = (Returns (mkFormResponse (GoToEvent "/")), db')
    ∧ size db' = S (size db)
    ∧ length (listing db') = S (length (listing db))
    ∧ (∀ k, k ≠ next_rowid db → db' !! k = db !! k)
    ∧ mkUser (Some (next_rowid db)) (form_name form) (form_dob form) ∈ listing db'
    ∧ with_session (session_get (Some (next_rowid db))) db'
      = (Returns (Some (mkUser (Some (next_rowid db)) (form_name form) (form_dob form))), db')
    ∧ user_profile (next_rowid db) db'
      = (Returns [Page (Heading (form_name form) 2 :: Link [Text "Back"] BackEvent
                        :: Details (mkUser (Some (next_rowid db)) (form_name form) (form_dob form))
                        :: rest)], db').
Proof.
  intros Hfree.
  set (row := mkRow (form_name form) (form_dob form)).
  destruct (user_profile_present (next_rowid db) (<[next_rowid db := row]> db) row)
    as [rest Hprofile]; [by rewrite lookup_insert_eq|].
  exists (<[next_rowid db := row]> db), rest. split_and!.
  - rewrite add_user_eq. by rewrite Hfree.
  - by apply map_size_insert_None.
  - rewrite !listing_eq, !length_scan. by apply map_size_insert_None.
  - intros k Hne. by rewrite lookup_insert_ne.
  - rewrite listing_eq, elem_of_scan. exists (next_rowid db), row.
    by rewrite lookup_insert_eq.
  - run_handler. by rewrite lookup_insert_eq.
  - exact Hprofile.
Qed.

Lemma add_user_inserts_one_row_witness :
  seeded !! sqlite_next_rowid seeded = None
  ∧ ∃ db' rest,
      add_user sqlite_next_rowid (mkUserForm "Amy" (Date 1994 1 1)) seeded
      = (Returns (mkFormResponse (GoToEvent "/")), db')
      ∧ size db' = S (size seeded)
      ∧ length (listing db') = S (length (listing seeded))
      ∧ (∀ k, k ≠ sqlite_next_rowid seeded → db' !! k = seeded !! k)
      ∧ mkUser (Some (sqlite_next_rowid seeded)) "Amy" (Date 1994 1 1) ∈ listing db'
      ∧ with_session (session_get (Some (sqlite_next_rowid seeded))) db'
        = (Returns (Some (mkUser (Some (sqlite_next_rowid seeded)) "Amy" (Date 1994 1 1))), db')
      ∧ user_profile (sqlite_next_rowid seeded) db'
        = (Returns [Page (Heading "Amy" 2 :: Link [Text "Back"] BackEvent
                          :: Details (mkUser (Some (sqlite_next_rowid seeded)) "Amy" (Date 1994 1 1))
                          :: rest)], db').
Proof.
  split; [vm_compute; reflexivity|].
  apply (add_user_inserts_one_row sqlite_next_rowid
           (mkUserForm "Amy" (Date 1994 1 1)) seeded).
  vm_compute; reflexivity.
Defined.



(** C3. Deleting an id that is in the store removes its row: the delete
    route returns, the id is no longer in the store afterwards, and the
    detail route for the same id then raises the HTTP 404 exception. *)
Theorem delete_user_then_not_found
    (user_id : Z) (form : DeleteUserForm) (db : Database) (r : UserRow) :
  db !! user_id = Some r →
  ∃ db',
    delete_user user_id form db = (Returns (mkFormResponse (GoToEvent "/")), db')
    ∧ db' !! user_id = None
    ∧ size db = S (size db')
    ∧ (∀ k, k ≠ user_id → db' !! k = db !! k)
    ∧ user_profile user_id db' = (Raises (HTTPException 404 "User not found"), db').
Proof.
  intros Hsome. exists (delete user_id db). split_and!.
  - apply delete_user_eq.
  - apply lookup_delete_eq.
  - rewrite <- (insert_delete_id db user_id r Hsome) at 1.
    apply map_size_insert_None, lookup_delete_eq.
  - intros k Hne. by rewrite lookup_delete_ne.
  - apply user_profile_absent, lookup_delete_eq.
Qed.

Lemma delete_user_then_not_found_witness :
  seeded !! 3%Z = Some (row_of Jill)
  ∧ ∃ db',
      delete_user 3 (mkDeleteUserForm true) seeded
      = (Returns (mkFormResponse (GoToEvent "/")), db')
      ∧ db' !! 3%Z = None
      ∧ size seeded = S (size db')
      ∧ (∀ k, k ≠ 3%Z → db' !! k = seeded !! k)
      ∧ user_profile 3 db' = (Raises (HTTPException 404 "User not found"), db').
Proof.
  split; [vm_compute; reflexivity|].
  apply (delete_user_then_not_found 3 (mkDeleteUserForm true) seeded (row_of Jill)).
  vm_compute; reflexivity.
Defined.

Lemma seed_rows_users : seed_rows users = seeded.
Proof. reflexivity. Qed.

(** C4. Seeding is idempotent.  From any store, the startup hook returns
    without an exception; running it again on the store it left changes
    nothing; a seed record is written only where its id was free (a row
    already stored under a seed id is kept as it is); after both runs the
    listing shows exactly one user for each seed id; and rows under other
    ids are untouched. *)
Theorem lifespan_idempotent (next_rowid : Database → Z) (db : Database) :
  ∃ db1,
    lifespan next_rowid db = (Returns (), db1)
    ∧ lifespan next_rowid db1 = (Returns (), db1)
    ∧ (∀ u k, u ∈ users → id u = Some k →
         db1 !! k = Some (default (row_of u) (db !! k))
         ∧ count_id k (listing db1) = 1)
    ∧ (∀ k, (∀ u, u ∈ users → id u ≠ Some k) → db1 !! k = db !! k).
Proof.
  exists (db ∪ seed_rows users). split_and!.
  - apply lifespan_eq.
  - rewrite lifespan_eq. f_equal.
    by rewrite <- (assoc_L (∪)), (idemp_L (∪)).
  - intros u k Hin Hk.
    assert (Hseed : seed_rows users !! k = Some (row_of u)).
    { rewrite seed_rows_users. unfold users in Hin.
      repeat (apply elem_of_cons in Hin as [->|Hin]; [by simplify_eq/=|]).
      by apply elem_of_nil in Hin. }
    assert (Hget : (db ∪ seed_rows users) !! k = Some (default (row_of u) (db !! k))).
    { rewrite lookup_union, Hseed. by destruct (db !! k). }
    split; [done|]. by rewrite listing_eq, count_id_scan, Hget.
  - intros k Hother. rewrite lookup_union, seed_rows_users. unfold seeded.
    assert (Hne : ∀ u, u ∈ users → id u ≠ Some k) by done.
    rewrite !lookup_insert_ne, lookup_empty.
    + by destruct (db !! k).
    + intros <-. apply (Hne Jane); [unfold users, Jane; set_solver|done].
    + intros <-. apply (Hne Jill); [unfold users, Jill; set_solver|done].
    + intros <-. apply (Hne Jack); [unfold users, Jack; set_solver|done].
    + intros <-. apply (Hne John); [unfold users, John; set_solver|done].
Qed.



(** C6. The delete route does not look at the confirmation flag: two
    submissions for the same id on the same store give the same response
    and the same store whatever their flags, and in particular a
    submission with the flag false deletes the row just as one with the
    flag true does. *)
Theorem delete_user_ignores_confirm
    (user_id : Z) (form1 form2 : DeleteUserForm) (db : Database) :
  delete_user user_id form1 db = delete_user user_id form2 db
  ∧ delete_user user_id (mkDeleteUserForm false) db
    = delete_user user_id (mkDeleteUserForm true) db
  ∧ (delete_user user_id form1 db).2 = delete user_id db.
Proof. by rewrite !delete_user_eq. Qed.

(** C7. For an id that is in the store, the detail route returns a page
    whose heading is the name stored for that id, and leaves the store as
    it was. *)
Theorem user_profile_heading (user_id : Z) (db : Database) (r : UserRow) :
  db !! user_id = Some r →
  ∃ view,
    user_profile user_id db = (Returns view, db)
    ∧ page_heading view = Some (row_name r).
Proof.
  intros Hsome. destruct (user_profile_present _ _ _ Hsome) as [rest ->].
  by eexists.
Qed.

Lemma user_profile_heading_witness :
  seeded !! 2%Z = Some (row_of Jack)
  ∧ ∃ view,
      user_profile 2 seeded = (Returns view, seeded)
      ∧ page_heading view = Some "Jack".
Proof.
  split; [vm_compute; reflexivity|].
  apply (user_profile_heading 2 seeded (row_of Jack)). vm_compute; reflexivity.
Defined.

(** C8. The scenario, on SQLite's key rule.  Startup on an empty store
    leaves the four seed users, and the list route lists them; adding Amy
    (born 1994-01-01) gives her id 5 and the list route lists five users,
    Amy among them; deleting id 5 with the flag true brings the list back
    to the four seed users. *)
Theorem seed_add_delete_scenario :
  lifespan sqlite_next_rowid ∅ = (Returns (), seeded)
  ∧ listing seeded = [John; Jack; Jill; Jane]
  ∧ add_user sqlite_next_rowid (mkUserForm "Amy" (Date 1994 1 1)) seeded
    = (Returns (mkFormResponse (GoToEvent "/")), <[5%Z := row_of Amy]> seeded)
  ∧ listing (<[5%Z := row_of Amy]> seeded) = [John; Jack; Jill; Jane; Amy]
  ∧ delete_user 5 (mkDeleteUserForm true) (<[5%Z := row_of Amy]> seeded)
    = (Returns (mkFormResponse (GoToEvent "/")), seeded)
  ∧ length (listing seeded) = 4.
Proof. split_and!; vm_compute; reflexivity. Qed.

(** C9. Nothing updates a row in place.  Whatever the program does (the
    startup hook, or serving any one request), a user id that is in the
    store before and after has the same name and date of birth after as
    before. *)
Theorem no_update_in_place
    (next_rowid : Database → Z) (prebuilt_html : string → string)
    (op : Operation) (db : Database) (k : Z) (r r' : UserRow) :
  db !! k = Some r →
  perform next_rowid prebuilt_html op db !! k = Some r' →
  row_name r' = row_name r ∧ row_dob r' = row_dob r.
Proof.
  intros Hbefore Hafter. cut (r' = r); [by intros ->|].
  destruct op as [|req]; simpl in Hafter.
  - rewrite lifespan_eq in Hafter. simpl in Hafter.
    rewrite (lookup_union_Some_l _ _ _ _ Hbefore) in Hafter. congruence.
  - destruct req as [|form| |user_id|user_id form|path]; simpl in Hafter.
    + revert Hafter. run_handler. congruence.
    + revert Hafter. unfold fmap, M_fmap, mbind, M_bind. rewrite add_user_eq.
      destruct (db !! next_rowid db) as [r0|] eqn:Hnext; simpl; [congruence|].
      rewrite lookup_insert_ne by congruence. congruence.
    + revert Hafter. run_handler. congruence.
    + revert Hafter. run_handler. destruct (db !! user_id); simpl; congruence.
    + revert Hafter. unfold fmap, M_fmap, mbind, M_bind. rewrite delete_user_eq. simpl.
      rewrite lookup_delete_Some. intros [_ Hget]. congruence.
    + revert Hafter. run_handler. congruence.
Qed.

Lemma no_update_in_place_witness :
  seeded !! 2%Z = Some (row_of Jack)
  ∧ perform sqlite_next_rowid (λ title, title)
      (Serve (POST_api_user_delete 3 (mkDeleteUserForm true))) seeded !! 2%Z
    = Some (row_of Jack)
  ∧ row_name (row_of Jack) = row_name (row_of Jack)
  ∧ row_dob (row_of Jack) = row_dob (row_of Jack).
Proof.
  split; [vm_compute; reflexivity|]. split; [vm_compute; reflexivity|].
  apply (no_update_in_place sqlite_next_rowid (λ title, title)
           (Serve (POST_api_user_delete 3 (mkDeleteUserForm true)))
           seeded 2 (row_of Jack) (row_of Jack));
    vm_compute; reflexivity.
Defined.


(** ** Further properties: the list route *)

(** X1. The list route is read-only and shows the table as it is: it
    returns a page headed "Users" and leaves the store unchanged; the users
    it lists are exactly the stored rows, each under its own id; every
    stored id is listed once and no other id is listed; so the listing is
    as long as the table is large. *)
Theorem users_table_lists_store (db : Database) :
  ∃ view,
    users_table db = (Returns view, db)
    ∧ page_heading view = Some "Users"
    ∧ (∀ u, u ∈ listed_users view ↔ ∃ k r, db !! k = Some r ∧ u = load k r)
    ∧ (∀ k, count_id k (listed_users view)
            = match db !! k with Some _ => 1 | None => 0 end)
    ∧ length (listed_users view) = size db.
Proof.
  eexists. split; [by run_handler|].
  change (listed_users _) with (scan db ++ []). rewrite (right_id_L [] (++)).
  split_and!; [done|..].
  - intros u. apply elem_of_scan.
  - intros k. apply count_id_scan.
  - apply length_scan.
Qed.

(** X2. Routes registered for GET never write: whatever the request and
    whether it returns or raises, the store after it is the store before. *)
Theorem get_routes_read_only
    (next_rowid : Database → Z) (prebuilt_html : string → string)
    (req : Request) (db : Database) :
  method req = GET →
  (app next_rowid prebuilt_html req db).2 = db.
Proof.
  destruct req as [|form| |user_id|user_id form|path]; intros Hget;
    try discriminate Hget; simpl; run_handler; try done.
  by destruct (db !! user_id).
Qed.

Lemma get_routes_read_only_witness :
  method (GET_api_user 7) = GET
  ∧ (app sqlite_next_rowid (λ title, title) (GET_api_user 7) seeded).2 = seeded.
Proof.
  split; [reflexivity|].
  apply (get_routes_read_only sqlite_next_rowid (λ title, title) (GET_api_user 7) seeded).
  reflexivity.
Defined.

(** ** Further properties: how the submissions compose *)

(** X3. Adding a user and then deleting the id it was given restores the
    store exactly: when the assigned key is a free one, both submissions
    return and the store after the delete is the store before the add. *)
Theorem add_then_delete_restores
    (next_rowid : Database → Z) (form : UserForm) (confirmation : DeleteUserForm)
    (db : Database) :
  db !! next_rowid db = None →
  ∃ db',
    add_user next_rowid form db = (Returns (mkFormResponse (GoToEvent "/")), db')
    ∧ delete_user (next_rowid db) confirmation db'
      = (Returns (mkFormResponse (GoToEvent "/")), db).
Proof.
  intros Hfree. eexists. split.
  - rewrite add_user_eq, Hfree. reflexivity.
  - rewrite delete_user_eq. by rewrite delete_insert_id.
Qed.

Lemma add_then_delete_restores_witness :
  seeded !! sqlite_next_rowid seeded = None
  ∧ ∃ db',
      add_user sqlite_next_rowid (mkUserForm "Amy" (Date 1994 1 1)) seeded
      = (Returns (mkFormResponse (GoToEvent "/")), db')
      ∧ delete_user (sqlite_next_rowid seeded) (mkDeleteUserForm false) db'
        = (Returns (mkFormResponse (GoToEvent "/")), seeded).
Proof.
  split; [vm_compute; reflexivity|].
  apply (add_then_delete_restores sqlite_next_rowid
           (mkUserForm "Amy" (Date 1994 1 1)) (mkDeleteUserForm false) seeded).
  vm_compute; reflexivity.
Defined.

(** X4. Deleting is idempotent: a second delete submission for the same id
    returns the same response as the first and leaves the store as the
    first one left it. *)
Theorem delete_user_twice
    (user_id : Z) (form1 form2 : DeleteUserForm) (db : Database) :
  delete_user user_id form2 (delete_user user_id form1 db).2
  = delete_user user_id form1 db.
Proof. rewrite !delete_user_eq. simpl. by rewrite delete_delete_eq. Qed.

(** X5. Delete submissions for two ids can be served in either order: the
    store reached is the same, and a row under a third id is untouched. *)
Theorem delete_user_order_irrelevant
    (id1 id2 : Z) (form1 form2 : DeleteUserForm) (db : Database) :
  (delete_user id2 form2 (delete_user id1 form1 db).2).2
  = (delete_user id1 form1 (delete_user id2 form2 db).2).2
  ∧ ∀ k, k ≠ id1 → k ≠ id2 →
      (delete_user id2 form2 (delete_user id1 form1 db).2).2 !! k = db !! k.
Proof.
  repeat (rewrite delete_user_eq; simpl). split.
  - apply delete_delete.
  - intros k Hne1 Hne2. by rewrite !lookup_delete_ne.
Qed.

(** X6. Only the delete route removes rows: after the startup hook, or
    after any request that is not a delete submission, every row that was
    stored is still stored, with the same contents. *)
Theorem only_delete_removes_rows
    (next_rowid : Database → Z) (prebuilt_html : string → string)
    (op : Operation) (db : Database) :
  deletes op = false →
  db ⊆ perform next_rowid prebuilt_html op db.
Proof.
  intros Hop. destruct op as [|req]; simpl.
  - rewrite lifespan_eq. apply map_union_subseteq_l.
  - destruct req as [|form| |user_id|user_id form|path];
      try discriminate Hop; simpl.
    + by run_handler.
    + unfold fmap, M_fmap, mbind, M_bind. rewrite add_user_eq.
      destruct (db !! next_rowid db) as [r|] eqn:Hnext; simpl; [done|].
      by apply insert_subseteq.
    + by run_handler.
    + run_handler. by destruct (db !! user_id).
    + by run_handler.
Qed.

Lemma only_delete_removes_rows_witness :
  deletes (Serve (POST_api_user_add (mkUserForm "Amy" (Date 1994 1 1)))) = false
  ∧ seeded ⊆ perform sqlite_next_rowid (λ title, title)
               (Serve (POST_api_user_add (mkUserForm "Amy" (Date 1994 1 1)))) seeded.
Proof.
  split; [reflexivity|].
  apply (only_delete_removes_rows sqlite_next_rowid (λ title, title)
           (Serve (POST_api_user_add (mkUserForm "Amy" (Date 1994 1 1)))) seeded).
  reflexivity.
Defined.

(** X7. Only the startup hook and the add route create rows: after any
    other request every stored row was already stored before, with the
    same contents. *)
Theorem only_startup_and_add_create_rows
    (next_rowid : Database → Z) (prebuilt_html : string → string)
    (op : Operation) (db : Database) :
  creates op = false →
  perform next_rowid prebuilt_html op db ⊆ db.
Proof.
  intros Hop. destruct op as [|req]; [discriminate Hop|].
  destruct req as [|form| |user_id|user_id form|path];
    try discriminate Hop; simpl.
  - by run_handler.
  - by run_handler.
  - run_handler. by destruct (db !! user_id).
  - unfold fmap, M_fmap, mbind, M_bind. rewrite delete_user_eq. simpl.
    apply delete_subseteq.
  - by run_handler.
Qed.

Lemma only_startup_and_add_create_rows_witness :
  creates (Serve (POST_api_user_delete 3 (mkDeleteUserForm true))) = false
  ∧ perform sqlite_next_rowid (λ title, title)
      (Serve (POST_api_user_delete 3 (mkDeleteUserForm true))) seeded ⊆ seeded.
Proof.
  split; [reflexivity|].
  apply (only_startup_and_add_create_rows sqlite_next_rowid (λ title, title)
           (Serve (POST_api_user_delete 3 (mkDeleteUserForm true))) seeded).
  reflexivity.
Defined.

(** X8. After an add submission the list route shows the users it showed
    before and the new one, and nothing else (up to the order of the
    table), provided the assigned key is a free one. *)
Theorem listing_after_add
    (next_rowid : Database → Z) (form : UserForm) (db : Database) :
  db !! next_rowid db = None →
  listing (add_user next_rowid form db).2
  ≡ₚ mkUser (Some (next_rowid db)) (form_name form) (form_dob form) :: listing db.
Proof.
  intros Hfree. rewrite add_user_eq, Hfree. simpl.
  rewrite !listing_eq, !scan_Permutation.
  by rewrite map_to_list_insert.
Qed.

Lemma listing_after_add_witness :
  seeded !! sqlite_next_rowid seeded = None
  ∧ listing (add_user sqlite_next_rowid (mkUserForm "Amy" (Date 1994 1 1)) seeded).2
    ≡ₚ mkUser (Some (sqlite_next_rowid seeded)) "Amy" (Date 1994 1 1) :: listing seeded.
Proof.
  split; [vm_compute; reflexivity|].
  apply (listing_after_add sqlite_next_rowid (mkUserForm "Amy" (Date 1994 1 1)) seeded).
  vm_compute; reflexivity.
Defined.

(** X9. After a delete submission for a stored id the list route shows the
    users it showed before except the deleted one (up to the order of the
    table), and the deleted id is no longer listed. *)
Theorem listing_after_delete
    (user_id : Z) (form : DeleteUserForm) (db : Database) (r : UserRow) :
  db !! user_id = Some r →
  listing db ≡ₚ load user_id r :: listing (delete_user user_id form db).2
  ∧ count_id user_id (listing (delete_user user_id form db).2) = 0.
Proof.
  intros Hsome. rewrite delete_user_eq. simpl. split.
  - rewrite !listing_eq, !scan_Permutation.
    by rewrite <- (map_to_list_delete db user_id r Hsome).
  - by rewrite listing_eq, count_id_scan, lookup_delete_eq.
Qed.

Lemma listing_after_delete_witness :
  seeded !! 3%Z = Some (row_of Jill)
  ∧ listing seeded
    ≡ₚ load 3 (row_of Jill) :: listing (delete_user 3 (mkDeleteUserForm true) seeded).2
  ∧ count_id 3 (listing (delete_user 3 (mkDeleteUserForm true) seeded).2) = 0.
Proof.
  split; [vm_compute; reflexivity|].
  apply (listing_after_delete 3 (mkDeleteUserForm true) seeded (row_of Jill)).
  vm_compute; reflexivity.
Defined.

(** ** Further properties: startup after requests *)

Lemma seed_rows_lookup (u : User) (k : Z) :
  u ∈ users → id u = Some k → seed_rows users !! k = Some (row_of u).
Proof.
  intros Hin Hk. rewrite seed_rows_users. unfold users in Hin.
  repeat (apply elem_of_cons in Hin as [->|Hin]; [by simplify_eq/=|]).
  by apply elem_of_nil in Hin.
Qed.

(** X10. A seed user that was deleted comes back at the next startup: after
    a delete submission for a seed id, the startup hook stores the seed
    record under that id again, and the detail route shows it. *)
Theorem deleted_seed_restored_at_startup
    (next_rowid : Database → Z) (u : User) (k : Z)
    (form : DeleteUserForm) (db : Database) :
  u ∈ users → id u = Some k →
  ∃ db' view,
    lifespan next_rowid (delete_user k form db).2 = (Returns (), db')
    ∧ db' !! k = Some (row_of u)
    ∧ user_profile k db' = (Returns view, db')
    ∧ page_heading view = Some (name u).
Proof.
  intros Hin Hk.
  assert (Hget : (delete k db ∪ seed_rows users) !! k = Some (row_of u)).
  { by rewrite lookup_union, lookup_delete_eq, (seed_rows_lookup u k Hin Hk). }
  destruct (user_profile_present k _ (row_of u) Hget) as [rest Hpage].
  eexists _, _. rewrite delete_user_eq. simpl. rewrite lifespan_eq.
  split_and!; [done..|]. reflexivity.
Qed.

Lemma deleted_seed_restored_at_startup_witness :
  Jack ∈ users ∧ id Jack = Some 2%Z
  ∧ ∃ db' view,
      lifespan sqlite_next_rowid (delete_user 2 (mkDeleteUserForm true) seeded).2
      = (Returns (), db')
      ∧ db' !! 2%Z = Some (row_of Jack)
      ∧ user_profile 2 db' = (Returns view, db')
      ∧ page_heading view = Some (name Jack).
Proof.
  assert (Hin : Jack ∈ users) by (unfold users, Jack; set_solver).
  split; [exact Hin|]. split; [reflexivity|].
  apply (deleted_seed_restored_at_startup sqlite_next_rowid Jack 2
           (mkDeleteUserForm true) seeded Hin).
  reflexivity.
Defined.

(** X11. The startup hook only fills in the seed ids: the ids stored after
    it are those stored before together with 1, 2, 3 and 4; every row
    stored before is kept; and the table grows by at most four rows. *)
Theorem lifespan_domain (next_rowid : Database → Z) (db : Database) :
  dom (lifespan next_rowid db).2 = dom db ∪ {[1%Z; 2%Z; 3%Z; 4%Z]}
  ∧ db ⊆ (lifespan next_rowid db).2
  ∧ size db ≤ size (lifespan next_rowid db).2 ≤ size db + 4.
Proof.
  rewrite lifespan_eq, seed_rows_users. simpl.
  assert (Hdom : dom seeded = ({[1%Z; 2%Z; 3%Z; 4%Z]} : gset Z)).
  { unfold seeded. rewrite !dom_insert_L, dom_empty_L. set_solver. }
  split_and!.
  - by rewrite dom_union_L, Hdom.
  - apply map_union_subseteq_l.
  - apply map_subseteq_size, map_union_subseteq_l.
  - rewrite <- !(size_dom (D := gset Z)), dom_union_L, size_union_alt.
    apply Nat.add_le_mono_l.
    transitivity (size (dom seeded));
      [by apply subseteq_size, subseteq_difference_l|].
    by rewrite size_dom.
Qed.

(** ** Further properties: the detail page *)

Lemma string_length_app (s t : string) :
  String.length (s +:+ t) = String.length s + String.length t.
Proof. induction s as [|a s IH]; simpl; [done|by rewrite IH]. Qed.

Lemma string_app_inj_r (s1 s2 t : string) : s1 +:+ t = s2 +:+ t → s1 = s2.
Proof.
  revert s2. induction s1 as [|a s1 IH]; intros [|b s2] Heq; simpl in Heq.
  - done.
  - apply (f_equal String.length) in Heq.
    rewrite ?string_length_app in Heq. simpl in Heq.
    rewrite ?string_length_app in Heq. lia.
  - apply (f_equal String.length) in Heq.
    rewrite ?string_length_app in Heq. simpl in Heq.
    rewrite ?string_length_app in Heq. lia.
  - injection Heq as -> Heq. f_equal. by apply IH.
Qed.

(** X12. The delete form on a detail page posts to the delete route of the
    user the page is about: its only form target is
    [/api/user/<id>/delete/] with the requested id written in decimal, and
    two detail pages have the same form target only when they are pages of
    the same id. *)
Theorem delete_form_targets_own_user
    (id1 id2 : Z) (db1 db2 db1' db2' : Database) (view1 view2 : list Component) :
  user_profile id1 db1 = (Returns view1, db1') →
  user_profile id2 db2 = (Returns view2, db2') →
  form_targets view1 = ["/api/user/" +:+ pretty id1 +:+ "/delete/"]
  ∧ (form_targets view1 = form_targets view2 → id1 = id2).
Proof.
  unfold user_profile, with_session, session_get, raise, mbind, M_bind, mret, M_ret.
  cbn [mbind option_bind pending committed].
  destruct (db1 !! id1) as [r1|], (db2 !! id2) as [r2|];
    cbn [fmap option_fmap option_map]; intros H1 H2; try discriminate.
  injection H1 as <- _. injection H2 as <- _.
  cbn [form_targets form_target mbind list_bind app]. split; [done|].
  intros [= Heq]. apply (inj pretty).
  exact (string_app_inj_r (pretty id1) (pretty id2) "/delete/" Heq).
Qed.

Lemma delete_form_targets_own_user_witness :
  ∃ view1 view2,
    user_profile 2 seeded = (Returns view1, seeded)
    ∧ user_profile 3 (delete 1%Z seeded) = (Returns view2, delete 1%Z seeded)
    ∧ form_targets view1 = ["/api/user/" +:+ pretty 2%Z +:+ "/delete/"]
    ∧ (form_targets view1 = form_targets view2 → 2%Z = 3%Z).
Proof.
  eexists _, _.
  split; [vm_compute; reflexivity|]. split; [vm_compute; reflexivity|].
  eapply (delete_form_targets_own_user 2 3 seeded (delete 1%Z seeded));
    vm_compute; reflexivity.
Defined.

(** X13. The list and the detail routes agree: every user the list route
    shows has an id, and the detail route for that id returns a page headed
    by that user's name whose detail view shows that very record. *)
Theorem listed_users_have_detail_pages (db : Database) (u : User) :
  u ∈ listing db →
  ∃ k view,
    id u = Some k
    ∧ user_profile k db = (Returns view, db)
    ∧ page_heading view = Some (name u)
    ∧ detailed_users view = [u].
Proof.
  rewrite listing_eq, elem_of_scan. intros (k & r & Hget & ->).
  exists k. eexists. split; [done|]. split.
  - run_handler. rewrite Hget. simpl. reflexivity.
  - done.
Qed.

Lemma listed_users_have_detail_pages_witness :
  Jill ∈ listing seeded
  ∧ ∃ k view,
      id Jill = Some k
      ∧ user_profile k seeded = (Returns view, seeded)
      ∧ page_heading view = Some (name Jill)
      ∧ detailed_users view = [Jill].
Proof.
  assert (Hin : Jill ∈ listing seeded).
  { change (listing seeded) with [John; Jack; Jill; Jane]. set_solver. }
  split; [exact Hin|].
  apply (listed_users_have_detail_pages seeded Jill Hin).
Defined.

(** ** Further properties: repeated and unconditional adds *)

(** X14. The add route is not idempotent and names need not be unique:
    submitting the same form twice stores two rows with the same name and
    date of birth under two different ids, provided each assigned key is a
    free one. *)
Theorem add_user_twice_two_rows
    (next_rowid : Database → Z) (form : UserForm) (db : Database) :
  db !! next_rowid db = None →
  (add_user next_rowid form db).2 !! next_rowid (add_user next_rowid form db).2 = None →
  ∃ k1 k2 db2,
    add_user next_rowid form (add_user next_rowid form db).2
    = (Returns (mkFormResponse (GoToEvent "/")), db2)
    ∧ k1 ≠ k2
    ∧ db2 !! k1 = Some (mkRow (form_name form) (form_dob form))
    ∧ db2 !! k2 = Some (mkRow (form_name form) (form_dob form))
    ∧ size db2 = S (S (size db)).
Proof.
  intros Hfree1. rewrite add_user_eq, Hfree1. simpl.
  set (row := mkRow (form_name form) (form_dob form)).
  set (db1 := <[next_rowid db := row]> db). intros Hfree2.
  exists (next_rowid db), (next_rowid db1), (<[next_rowid db1 := row]> db1).
  assert (Hne : next_rowid db ≠ next_rowid db1).
  { intros Heq. rewrite <- Heq in Hfree2. unfold db1 in Hfree2 at 1.
    by rewrite lookup_insert_eq in Hfree2. }
  split_and!.
  - rewrite add_user_eq, Hfree2. reflexivity.
  - done.
  - rewrite lookup_insert_ne by done. apply lookup_insert_eq.
  - apply lookup_insert_eq.
  - rewrite map_size_insert_None by done. f_equal. by apply map_size_insert_None.
Qed.

Lemma add_user_twice_two_rows_witness :
  seeded !! sqlite_next_rowid seeded = None
  ∧ (add_user sqlite_next_rowid (mkUserForm "Amy" (Date 1994 1 1)) seeded).2
      !! sqlite_next_rowid
           (add_user sqlite_next_rowid (mkUserForm "Amy" (Date 1994 1 1)) seeded).2
    = None
  ∧ ∃ k1 k2 db2,
      add_user sqlite_next_rowid (mkUserForm "Amy" (Date 1994 1 1))
        (add_user sqlite_next_rowid (mkUserForm "Amy" (Date 1994 1 1)) seeded).2
      = (Returns (mkFormResponse (GoToEvent "/")), db2)
      ∧ k1 ≠ k2
      ∧ db2 !! k1 = Some (mkRow "Amy" (Date 1994 1 1))
      ∧ db2 !! k2 = Some (mkRow "Amy" (Date 1994 1 1))
      ∧ size db2 = S (S (size seeded)).
Proof.
  split; [vm_compute; reflexivity|]. split; [vm_compute; reflexivity|].
  apply (add_user_twice_two_rows sqlite_next_rowid
           (mkUserForm "Amy" (Date 1994 1 1)) seeded);
    vm_compute; reflexivity.
Defined.


